(** * Check-dialect conversion registration and the dynamic-library HAL device

    A shallow embedding of

    - [iree/compiler/Dialect/Modules/Check/Conversion/ConversionPatterns.cpp]
      (the two pattern populators of the check dialect), and
    - [iree/hal/dylib/dylib_device.cc] (the [DyLibDevice] constructor,
      destructor and executable-cache factory),

    followed by the properties the specification states about them. *)

From stdpp Require Import base option list strings gmap.

Set Default Proof Using "Type".

(* ===================================================================== *)
(** * Part I.  ConversionPatterns.cpp                                     *)
(* ===================================================================== *)

Module Check.

(** The op classes of [CheckOps.h] that the file names as template
    arguments. *)
Inductive CheckOp : Type :=
  | ExpectTrueOp
  | ExpectFalseOp
  | ExpectAllTrueOp
  | ExpectEqOp
  | ExpectAlmostEqOp.

#[global] Instance CheckOp_eq_dec : EqDecision CheckOp.
Proof. solve_decision. Defined.

Section Patterns.

(** Types of MLIR that the populators only pass along: the context, the
    declaration of an imported VM function, and the IR types that a type
    converter translates. *)
Context {MLIRContext ImportOp Ty : Type}.

(** [SymbolTable &importSymbols]: import declarations by symbol name. *)
#[local] Abbreviation SymbolTable := (gmap string ImportOp).

(** [TypeConverter &typeConverter]: a type has a target-layer equivalent
    or none. *)
Definition TypeConverter : Type := Ty → option Ty.

(** A pattern is the template instance that was constructed, with the
    arguments its constructor received:
    [VMImportOpConversion<T>(context, importSymbols, typeConverter, importName)]
    and [HALOpConversion<SRC, DST>(context, typeConverter)]. *)
Inductive Pattern : Type :=
  | VMImportOpConversion (T : CheckOp) (context : MLIRContext)
      (importSymbols : SymbolTable) (typeConverter : TypeConverter)
      (importName : string)
  | HALOpConversion (SRC DST : CheckOp) (context : MLIRContext)
      (typeConverter : TypeConverter).

(** The op class a pattern is rooted at (the [T] of [OpConversionPattern<T>]). *)
Definition rootOp (p : Pattern) : CheckOp :=
  match p with
  | VMImportOpConversion T _ _ _ _ => T
  | HALOpConversion SRC _ _ _ => SRC
  end.

(** The import name a VM pattern was constructed with. *)
Definition importNameOf (p : Pattern) : option string :=
  match p with
  | VMImportOpConversion _ _ _ _ importName => Some importName
  | HALOpConversion _ _ _ _ => None
  end.

(** The destination op class of a HAL pattern. *)
Definition dstOp (p : Pattern) : option CheckOp :=
  match p with
  | VMImportOpConversion _ _ _ _ _ => None
  | HALOpConversion _ DST _ _ => Some DST
  end.

(** [OwningRewritePatternList]: the patterns in the order they were
    inserted. *)
#[local] Abbreviation OwningRewritePatternList := (list Pattern).

(** [patterns.insert<T>(args...)]: [emplace_back] of the constructed
    pattern. *)
Definition insert (p : Pattern) (patterns : OwningRewritePatternList)
  : OwningRewritePatternList :=
  patterns ++ [p].

(** [patterns.insert<Ts...>(context, typeConverter)]: one [emplace_back]
    per template argument, left to right, each constructor receiving the
    same arguments. *)
Definition insert_each
    (Ts : list (MLIRContext → TypeConverter → Pattern))
    (context : MLIRContext) (typeConverter : TypeConverter)
    (patterns : OwningRewritePatternList) : OwningRewritePatternList :=
  foldl (λ acc T, insert (T context typeConverter) acc) patterns Ts.

(** [populateCheckToVMPatterns], ConversionPatterns.cpp lines 28-41.  The
    pattern list is taken by reference and mutated; here the list after
    the call is returned. *)
Definition populateCheckToVMPatterns (context : MLIRContext)
    (importSymbols : SymbolTable) (patterns : OwningRewritePatternList)
    (typeConverter : TypeConverter) : OwningRewritePatternList :=
  let patterns :=
    insert (VMImportOpConversion ExpectTrueOp
              context importSymbols typeConverter "check.expect_true")
           patterns in
  let patterns :=
    insert (VMImportOpConversion ExpectFalseOp
              context importSymbols typeConverter "check.expect_false")
           patterns in
  let patterns :=
    insert (VMImportOpConversion ExpectAllTrueOp
              context importSymbols typeConverter "check.expect_all_true")
           patterns in
  let patterns :=
    insert (VMImportOpConversion ExpectEqOp
              context importSymbols typeConverter "check.expect_eq")
           patterns in
  let patterns :=
    insert (VMImportOpConversion ExpectAlmostEqOp
              context importSymbols typeConverter "check.expect_almost_eq")
           patterns in
  patterns.

(** [populateCheckToHALPatterns], ConversionPatterns.cpp lines 43-54. *)
Definition populateCheckToHALPatterns (context : MLIRContext)
    (patterns : OwningRewritePatternList)
    (typeConverter : TypeConverter) : OwningRewritePatternList :=
  (* The same op handles both tensors and buffer views. *)
  insert_each
    [ HALOpConversion ExpectAllTrueOp ExpectAllTrueOp;
      HALOpConversion ExpectEqOp ExpectEqOp;
      HALOpConversion ExpectAlmostEqOp ExpectAlmostEqOp ]
    context typeConverter patterns.

(** ** Rewrite-time behaviour of the two pattern templates

    [ImportUtils.h] ([VMImportOpConversion]) and [ConversionTarget.h]
    ([HALOpConversion]) are not part of the sources at hand; what the
    patterns do once constructed is taken from the specification. *)

(** Modelled from the spec: a value of the program, with its name and its
    type. *)
Record Value : Type := mkValue { value_name : string; value_type : Ty }.

(** Modelled from the spec: a check op of the program, with its op class
    and its operands. *)
Record Operation : Type := mkOperation {
  op_kind : CheckOp;
  op_operands : list Value
}.

(** Modelled from the spec: what a pattern replaces the op with, a call to
    an imported function or a check op. *)
Inductive Replacement : Type :=
  | CallImport (callee : ImportOp) (operands : list Value)
  | CheckOperation (kind : CheckOp) (operands : list Value).

(** Modelled from the spec: why a pattern did not rewrite (the error kinds
    of section 7). *)
Inductive RewriteFailure : Type :=
  | NotMatched
  | ImportNameNotFound (importName : string)
  | TypeConversionFailure.

(** Modelled from the spec: an operand keeps its identity and gets the type
    the converter maps its type to; an operand type with no target-layer
    equivalent fails the conversion. *)
Definition convertOperand (typeConverter : TypeConverter) (v : Value)
  : option Value :=
  mkValue (value_name v) <$> typeConverter (value_type v).

(** Modelled from the spec: the operands of an op, converted one by one. *)
Definition convertOperands (typeConverter : TypeConverter)
    (operands : list Value) : option (list Value) :=
  mapM (convertOperand typeConverter) operands.

(** Modelled from the spec: the import handle a VM pattern caches, looked
    up by name in the import symbol table when the pattern is constructed;
    empty when the table has no such name. *)
Definition importOp (p : Pattern) : option ImportOp :=
  match p with
  | VMImportOpConversion _ _ importSymbols _ importName =>
      importSymbols !! importName
  | HALOpConversion _ _ _ _ => None
  end.

(** Modelled from the spec: [matchAndRewrite] of the two templates.  A VM
    pattern that fires replaces its op by a call to the cached import with
    the converted operands, and fails when the cached handle is empty; a
    HAL pattern replaces its op by the destination op over the converted
    operands. *)
Definition matchAndRewrite (p : Pattern) (op : Operation)
  : RewriteFailure + Replacement :=
  if decide (op_kind op = rootOp p) then
    match p with
    | VMImportOpConversion _ _ _ typeConverter importName =>
        match importOp p with
        | None => inl (ImportNameNotFound importName)
        | Some callee =>
            match convertOperands typeConverter (op_operands op) with
            | None => inl TypeConversionFailure
            | Some operands => inr (CallImport callee operands)
            end
        end
    | HALOpConversion _ DST _ typeConverter =>
        match convertOperands typeConverter (op_operands op) with
        | None => inl TypeConversionFailure
        | Some operands => inr (CheckOperation DST operands)
        end
    end
  else inl NotMatched.

End Patterns.

Arguments Pattern : clear implicits.
Arguments TypeConverter : clear implicits.
Arguments Value : clear implicits.
Arguments Operation : clear implicits.
Arguments Replacement : clear implicits.

(** The two container types under the names the source gives them. *)
Abbreviation SymbolTable ImportOp := (gmap string ImportOp).
Abbreviation OwningRewritePatternList MLIRContext ImportOp Ty :=
  (list (Pattern MLIRContext ImportOp Ty)).

(** The import names of the table in section 4.1 of the specification. *)
Definition table_4_1 (op : CheckOp) : string :=
  match op with
  | ExpectTrueOp => "check.expect_true"
  | ExpectFalseOp => "check.expect_false"
  | ExpectAllTrueOp => "check.expect_all_true"
  | ExpectEqOp => "check.expect_eq"
  | ExpectAlmostEqOp => "check.expect_almost_eq"
  end.

(** ** The scenarios of section 8 of the specification *)

(** The operand types the scenarios mention. *)
Inductive ScenarioType : Type := tensor | buffer_view | i1.

(** A type converter that maps tensor to buffer-view and keeps the other
    types. *)
Definition tensorToBufferView : TypeConverter ScenarioType :=
  λ t, match t with tensor => Some buffer_view | _ => Some t end.

(** [check.expect_eq %a, %b] over two tensor values. *)
Definition expect_eq_a_b : Operation ScenarioType :=
  mkOperation ExpectEqOp [mkValue "a" tensor; mkValue "b" tensor].

(** [check.expect_true %0] over a scalar predicate. *)
Definition expect_true_0 : Operation ScenarioType :=
  mkOperation ExpectTrueOp [mkValue "0" i1].

(** An import symbol table that declares no import at all; an import is
    identified here by its symbol name. *)
Definition noImports : SymbolTable string := ∅.

End Check.

(* ===================================================================== *)
(** * Part II.  dylib_device.cc                                           *)
(* ===================================================================== *)

Module DyLib.

(** Addresses of heap objects. *)
Abbreviation loc := positive.

(** [std::unique_ptr<T>] and [ref_ptr<T>]: the address of the object the
    handle owns, or [None] for [nullptr]. *)
Abbreviation unique_ptr := (option loc).
Abbreviation ref_ptr := (option loc).

(** Move construction of a [std::unique_ptr] from [std::move(p)]: the new
    handle receives the pointer and [p] is left null, which the C++
    standard guarantees for this type. *)
Definition unique_ptr_move (p : unique_ptr) : unique_ptr * unique_ptr :=
  (p, None).

Section Device.

(** What [device_info.h], the scheduling model and
    [dylib_executable_cache.h] declare stays abstract, as does the log that
    [tracing.h] writes to. *)
Context {DeviceInfo SchedulingModel DyLibExecutableCache TraceLog : Type}.

(** [DyLibExecutableCache()], the state of a newly constructed cache. *)
Variable DyLibExecutableCache_ctor : DyLibExecutableCache.

(** [IREE_TRACE_SCOPE0(name)]: what entering and leaving the scope do to
    the trace log. *)
Variable trace_scope_enter trace_scope_leave : string → TraceLog → TraceLog.

(** Modelled from the spec: move construction of a [DeviceInfo] from
    [std::move(h)].  The move constructor is declared in [device_info.h],
    which is not part of the sources at hand, and the C++ standard
    promises no more than a valid state for the variable moved from; that
    the variable is left empty is the specification's statement.  A device
    info variable is [Some info] while it holds [info] and [None] once it
    is empty. *)
Definition DeviceInfo_move (h : option DeviceInfo)
  : option DeviceInfo * option DeviceInfo :=
  (h, None).

(** The objects that live on the heap. *)
Inductive Object : Type :=
  | SchedulingModelObject (m : SchedulingModel)
  | ExecutableCacheObject (c : DyLibExecutableCache).

(** A resource given back: a device info whose destructor ran, or a heap
    object that was deleted. *)
Inductive Release : Type :=
  | ReleaseDeviceInfo (info : DeviceInfo)
  | DeleteObject (l : loc).

(** The state outside the device object: the heap, the releases so far,
    and the trace log. *)
Record World : Type := mkWorld {
  heap : gmap loc Object;
  released : list Release;
  trace : TraceLog
}.

(** Modelled from the spec: the host-local base class, which is not part of
    the sources at hand.  It owns the device info and the scheduling model
    it was constructed with. *)
Record HostLocalDevice : Type := mkHostLocalDevice {
  device_info_ : option DeviceInfo;
  scheduling_model_ : unique_ptr
}.

(** Modelled from the spec: [HostLocalDevice(device_info, scheduling_model)]
    takes ownership of both arguments. *)
Definition HostLocalDevice_ctor (device_info : option DeviceInfo)
    (scheduling_model : unique_ptr) : HostLocalDevice :=
  mkHostLocalDevice device_info scheduling_model.

(** [class DyLibDevice : public HostLocalDevice]; the constructor
    initialises the base class and nothing else. *)
Record DyLibDevice : Type := mkDyLibDevice { base : HostLocalDevice }.

(** [DyLibDevice::DyLibDevice], dylib_device.cc lines 26-28.  Returns the
    device together with the two parameters as the constructor leaves
    them. *)
Definition DyLibDevice_ctor (device_info : option DeviceInfo)
    (scheduling_model : unique_ptr)
  : DyLibDevice * (option DeviceInfo * unique_ptr) :=
  let '(arg1, device_info) := DeviceInfo_move device_info in
  let '(arg2, scheduling_model) := unique_ptr_move scheduling_model in
  (mkDyLibDevice (HostLocalDevice_ctor arg1 arg2),
   (device_info, scheduling_model)).

(** The destructor of a [DeviceInfo] variable releases the device info the
    variable holds; an empty variable holds nothing to release. *)
Definition DeviceInfo_dtor (h : option DeviceInfo) (w : World) : World :=
  match h with
  | Some info =>
      mkWorld (heap w) (released w ++ [ReleaseDeviceInfo info]) (trace w)
  | None => w
  end.

(** The destructor of a [std::unique_ptr]: deletes the object it owns. *)
Definition unique_ptr_dtor (p : unique_ptr) (w : World) : World :=
  match p with
  | Some l =>
      mkWorld (delete l (heap w)) (released w ++ [DeleteObject l]) (trace w)
  | None => w
  end.

(** Modelled from the spec: the destructor of the host-local base class
    releases the scheduling model and the device info. *)
Definition HostLocalDevice_dtor (d : HostLocalDevice) (w : World) : World :=
  DeviceInfo_dtor (device_info_ d) (unique_ptr_dtor (scheduling_model_ d) w).

(** [DyLibDevice::~DyLibDevice() = default], dylib_device.cc line 30. *)
Definition DyLibDevice_dtor (d : DyLibDevice) (w : World) : World :=
  HostLocalDevice_dtor (base d) w.

(** The two handles a caller holds before it constructs a device. *)
Record Caller : Type := mkCaller {
  caller_device_info : option DeviceInfo;
  caller_scheduling_model : unique_ptr
}.

(** Modelled from the spec: a call site
    [DyLibDevice(std::move(device_info), std::move(scheduling_model))].
    The parameters are initialised from the caller's handles by move and
    are destroyed when the constructor has returned. *)
Definition construct_moved (c : Caller) (w : World)
  : DyLibDevice * Caller * World :=
  let '(param1, device_info) := DeviceInfo_move (caller_device_info c) in
  let '(param2, scheduling_model) :=
    unique_ptr_move (caller_scheduling_model c) in
  let '(device, (param1, param2)) := DyLibDevice_ctor param1 param2 in
  let w := DeviceInfo_dtor param1 (unique_ptr_dtor param2 w) in
  (device, mkCaller device_info scheduling_model, w).

(** The caller's handles going out of scope. *)
Definition Caller_dtor (c : Caller) (w : World) : World :=
  DeviceInfo_dtor (caller_device_info c)
    (unique_ptr_dtor (caller_scheduling_model c) w).

(** [new T(...)]: the object is placed at an address that no live object
    has.  Memory is unbounded. *)
Definition new (o : Object) (w : World) : loc * World :=
  let l := fresh (dom (heap w)) in
  (l, mkWorld (<[l := o]> (heap w)) (released w) (trace w)).

(** Modelled from the spec: [make_ref<T>(...)] of [ref_ptr.h], which is not
    part of the sources at hand.  The result is a newly constructed object
    wrapped in a shared-reference handle: a [ref_ptr] to [new T(...)]. *)
Definition make_ref (o : Object) (w : World) : ref_ptr * World :=
  let '(l, w) := new o w in (Some l, w).

(** The trace scope acts on the trace log only. *)
Definition IREE_TRACE_SCOPE0_enter (name : string) (w : World) : World :=
  mkWorld (heap w) (released w) (trace_scope_enter name (trace w)).

Definition IREE_TRACE_SCOPE0_leave (name : string) (w : World) : World :=
  mkWorld (heap w) (released w) (trace_scope_leave name (trace w)).

(** [DyLibDevice::CreateExecutableCache], dylib_device.cc lines 32-35.
    The method is not [const]: the device after the call is part of the
    result. *)
Definition CreateExecutableCache (this : DyLibDevice) (w : World)
  : ref_ptr * DyLibDevice * World :=
  let w := IREE_TRACE_SCOPE0_enter "DyLibDevice::CreateExecutableCache" w in
  let '(result, w) :=
    make_ref (ExecutableCacheObject DyLibExecutableCache_ctor) w in
  let w := IREE_TRACE_SCOPE0_leave "DyLibDevice::CreateExecutableCache" w in
  (result, this, w).

(** A caller that asks the same device for a cache [n] times in a row and
    keeps every handle it gets. *)
Fixpoint CreateExecutableCaches (n : nat) (this : DyLibDevice) (w : World)
  : list ref_ptr * DyLibDevice * World :=
  match n with
  | 0 => ([], this, w)
  | S n =>
      let '(result, this, w) := CreateExecutableCache this w in
      let '(results, this, w) := CreateExecutableCaches n this w in
      (result :: results, this, w)
  end.

End Device.

Arguments Object : clear implicits.
Arguments Release : clear implicits.
Arguments World : clear implicits.
Arguments HostLocalDevice : clear implicits.
Arguments DyLibDevice : clear implicits.
Arguments Caller : clear implicits.

(** ** A device whose scheduling model is live *)

(** A state in which address 1 holds a scheduling model and nothing has
    been released. *)
Definition oneModelWorld : World () () () () :=
  mkWorld {[ 1%positive := SchedulingModelObject () ]} [] ().

(** A device that owns the scheduling model at address 1. *)
Definition oneModelDevice : DyLibDevice () :=
  mkDyLibDevice (mkHostLocalDevice (Some ()) (Some 1%positive)).

End DyLib.

(* ===================================================================== *)
(** * Part III.  Properties of the pattern populators                     *)
(* ===================================================================== *)

Section CheckProperties.

Import Check.

Context {MLIRContext ImportOp Ty : Type}.

Implicit Types (context : MLIRContext)
  (importSymbols : SymbolTable ImportOp)
  (typeConverter : TypeConverter Ty)
  (p : Pattern MLIRContext ImportOp Ty)
  (patterns new : OwningRewritePatternList MLIRContext ImportOp Ty).

(** A variadic insert appends the constructed patterns, in the order of
    the template arguments, behind what the list held. *)
Lemma insert_each_app Ts context typeConverter patterns :
  insert_each Ts context typeConverter patterns
  = patterns ++ ((λ T, T context typeConverter) <$> Ts).
Proof.
  unfold insert_each. revert patterns.
  induction Ts as [|T Ts IH]; intros patterns; simpl.
  - by rewrite app_nil_r.
  - rewrite IH. unfold insert. by rewrite <- app_assoc.
Qed.

(** The VM populator, as one append. *)
Lemma populateCheckToVMPatterns_app context importSymbols patterns typeConverter :
  populateCheckToVMPatterns context importSymbols patterns typeConverter
  = patterns
    ++ populateCheckToVMPatterns context importSymbols [] typeConverter.
Proof.
  unfold populateCheckToVMPatterns, insert. simpl.
  by rewrite <- !app_assoc.
Qed.

(** The HAL populator, as one append. *)
Lemma populateCheckToHALPatterns_app context patterns typeConverter :
  populateCheckToHALPatterns context patterns typeConverter
  = patterns ++ populateCheckToHALPatterns context [] typeConverter.
Proof.
  unfold populateCheckToHALPatterns. by rewrite !insert_each_app.
Qed.

Lemma populateCheckToVMPatterns_length context importSymbols patterns typeConverter :
  length (populateCheckToVMPatterns context importSymbols patterns typeConverter)
  = length patterns + 5.
Proof. by rewrite populateCheckToVMPatterns_app, length_app. Qed.

Lemma populateCheckToHALPatterns_length context patterns typeConverter :
  length (populateCheckToHALPatterns context patterns typeConverter)
  = length patterns + 3.
Proof. by rewrite populateCheckToHALPatterns_app, length_app. Qed.

(** C1: on every pattern list, [populateCheckToVMPatterns] appends exactly
    five patterns; for each of the five check op classes exactly one of
    them is rooted at that class, and it is the VM import conversion that
    records the import name of the table in section 4.1. *)
Theorem populateCheckToVMPatterns_complete
    context importSymbols patterns typeConverter :
  ∃ new,
    populateCheckToVMPatterns context importSymbols patterns typeConverter
    = patterns ++ new
    ∧ length new = 5
    ∧ (∀ op : CheckOp,
         filter (λ p, rootOp p = op) new
         = [VMImportOpConversion op context importSymbols typeConverter
              (table_4_1 op)])
    ∧ importNameOf <$> new
      = [Some "check.expect_true"; Some "check.expect_false";
         Some "check.expect_all_true"; Some "check.expect_eq";
         Some "check.expect_almost_eq"].
Proof.
  eexists. split; [apply populateCheckToVMPatterns_app|].
  split; [reflexivity|]. split; [|reflexivity].
  intros []; reflexivity.
Qed.

(** C2: on every pattern list, [populateCheckToHALPatterns] appends exactly
    three patterns: one rooted at each of expect_all_true, expect_eq and
    expect_almost_eq, and none rooted at expect_true or expect_false. *)
Theorem populateCheckToHALPatterns_complete context patterns typeConverter :
  ∃ new,
    populateCheckToHALPatterns context patterns typeConverter
    = patterns ++ new
    ∧ length new = 3
    ∧ filter (λ p, rootOp p = ExpectAllTrueOp) new
      = [HALOpConversion ExpectAllTrueOp ExpectAllTrueOp context typeConverter]
    ∧ filter (λ p, rootOp p = ExpectEqOp) new
      = [HALOpConversion ExpectEqOp ExpectEqOp context typeConverter]
    ∧ filter (λ p, rootOp p = ExpectAlmostEqOp) new
      = [HALOpConversion ExpectAlmostEqOp ExpectAlmostEqOp context typeConverter]
    ∧ filter (λ p, rootOp p = ExpectTrueOp) new = []
    ∧ filter (λ p, rootOp p = ExpectFalseOp) new = [].
Proof.
  eexists. split; [apply populateCheckToHALPatterns_app|].
  repeat split; reflexivity.
Qed.

(** C9: the five patterns of [populateCheckToVMPatterns] stand behind the
    patterns the list held in the order expect_true, expect_false,
    expect_all_true, expect_eq, expect_almost_eq, which is the order a
    front-to-back traversal of the list meets them in. *)
Theorem populateCheckToVMPatterns_order
    context importSymbols patterns typeConverter :
  let result :=
    populateCheckToVMPatterns context importSymbols patterns typeConverter in
  rootOp <$> drop (length patterns) result
  = [ExpectTrueOp; ExpectFalseOp; ExpectAllTrueOp; ExpectEqOp;
     ExpectAlmostEqOp]
  ∧ rootOp <$> result !! (length patterns + 0) = Some ExpectTrueOp
  ∧ rootOp <$> result !! (length patterns + 1) = Some ExpectFalseOp
  ∧ rootOp <$> result !! (length patterns + 2) = Some ExpectAllTrueOp
  ∧ rootOp <$> result !! (length patterns + 3) = Some ExpectEqOp
  ∧ rootOp <$> result !! (length patterns + 4) = Some ExpectAlmostEqOp
  ∧ result !! (length patterns + 5) = None.
Proof.
  intros result. subst result.
  rewrite populateCheckToVMPatterns_app.
  rewrite drop_app_length.
  split; [reflexivity|].
  rewrite !lookup_app_r by lia.
  replace (length patterns + 0 - length patterns) with 0 by lia.
  replace (length patterns + 1 - length patterns) with 1 by lia.
  replace (length patterns + 2 - length patterns) with 2 by lia.
  replace (length patterns + 3 - length patterns) with 3 by lia.
  replace (length patterns + 4 - length patterns) with 4 by lia.
  replace (length patterns + 5 - length patterns) with 5 by lia.
  repeat split; reflexivity.
Qed.

(** C8: both populators only append.  The patterns a list held before a
    call are its first patterns afterwards, unchanged and in the same
    order, and the new patterns follow them; a second call of
    [populateCheckToVMPatterns] removes no duplicate and appends the same
    five patterns once more. *)
Theorem populators_append_only context importSymbols patterns typeConverter :
  let vm :=
    populateCheckToVMPatterns context importSymbols patterns typeConverter in
  let hal := populateCheckToHALPatterns context patterns typeConverter in
  let vm2 := populateCheckToVMPatterns context importSymbols vm typeConverter in
  (take (length patterns) vm = patterns
   ∧ length vm = length patterns + 5)
  ∧ (take (length patterns) hal = patterns
     ∧ length hal = length patterns + 3)
  ∧ (take (length vm) vm2 = vm
     ∧ length vm2 = length patterns + 10
     ∧ drop (length vm) vm2 = drop (length patterns) vm
     ∧ vm2 = patterns ++ drop (length patterns) vm ++ drop (length patterns) vm).
Proof.
  intros vm hal vm2. subst vm2 hal vm.
  rewrite (populateCheckToVMPatterns_app _ _ (populateCheckToVMPatterns _ _ _ _)).
  rewrite populateCheckToHALPatterns_app.
  rewrite (populateCheckToVMPatterns_app _ _ patterns).
  set (five := populateCheckToVMPatterns context importSymbols [] typeConverter).
  set (three := populateCheckToHALPatterns context [] typeConverter).
  assert (length five = 5) as H5 by reflexivity.
  assert (length three = 3) as H3 by reflexivity.
  repeat split.
  - by rewrite take_app_length.
  - rewrite length_app. lia.
  - by rewrite take_app_length.
  - rewrite length_app. lia.
  - by rewrite take_app_length.
  - rewrite !length_app. lia.
  - by rewrite !drop_app_length.
  - by rewrite drop_app_length, <- app_assoc.
Qed.

(** ** Rewrite-time lemmas *)

Lemma convertOperands_Some typeConverter (operands operands' : list (Value Ty)) :
  convertOperands typeConverter operands = Some operands' →
  Forall2 (λ v v', value_name v' = value_name v
                   ∧ typeConverter (value_type v) = Some (value_type v'))
          operands operands'.
Proof.
  intros H%mapM_Some_1.
  induction H as [|v v' vs vs' Hv _ IH]; constructor; [|exact IH].
  unfold convertOperand in Hv.
  destruct (typeConverter (value_type v)) as [t|]; simplify_eq/=. done.
Qed.

Lemma convertOperands_total typeConverter (operands : list (Value Ty)) :
  Forall (λ v, is_Some (typeConverter (value_type v))) operands →
  is_Some (convertOperands typeConverter operands).
Proof.
  intros H. apply mapM_is_Some_2.
  eapply Forall_impl; [exact H|].
  intros v [t Ht]. unfold compose, convertOperand. rewrite Ht. by eexists.
Qed.

(** The three patterns of the HAL populator. *)
Lemma elem_of_populateCheckToHALPatterns context patterns typeConverter p :
  p ∈ drop (length patterns)
        (populateCheckToHALPatterns context patterns typeConverter) →
  ∃ op, p = HALOpConversion op op context typeConverter.
Proof.
  rewrite populateCheckToHALPatterns_app, drop_app_length.
  cbn. rewrite !elem_of_cons, elem_of_nil.
  intros [->|[->|[->|[]]]]; eauto.
Qed.

(** The five patterns of the VM populator. *)
Lemma elem_of_populateCheckToVMPatterns
    context importSymbols patterns typeConverter p :
  p ∈ drop (length patterns)
        (populateCheckToVMPatterns context importSymbols patterns typeConverter) →
  ∃ op, p = VMImportOpConversion op context importSymbols typeConverter
              (table_4_1 op).
Proof.
  rewrite populateCheckToVMPatterns_app, drop_app_length.
  cbn. rewrite !elem_of_cons, elem_of_nil.
  intros [->|[->|[->|[->|[->|[]]]]]];
    [ by exists ExpectTrueOp | by exists ExpectFalseOp
    | by exists ExpectAllTrueOp | by exists ExpectEqOp
    | by exists ExpectAlmostEqOp ].
Qed.

(** C3: every pattern that [populateCheckToHALPatterns] appends has its
    source op class as its destination op class.  When such a pattern
    rewrites an op, the replacement is an op of the same class with as many
    operands, each the operand of the same position and name with the type
    the converter maps its type to; and it does rewrite every op of its
    class whose operand types the converter can convert. *)
Theorem populateCheckToHALPatterns_identity context patterns typeConverter :
  let new :=
    drop (length patterns)
      (populateCheckToHALPatterns context patterns typeConverter) in
  Forall (λ p, dstOp p = Some (rootOp p)) new
  ∧ (∀ p (op : Operation Ty) r,
       p ∈ new → matchAndRewrite p op = inr r →
       ∃ operands,
         r = CheckOperation (op_kind op) operands
         ∧ length operands = length (op_operands op)
         ∧ Forall2 (λ v v', value_name v' = value_name v
                            ∧ typeConverter (value_type v)
                              = Some (value_type v'))
                   (op_operands op) operands)
  ∧ (∀ p (op : Operation Ty),
       p ∈ new → op_kind op = rootOp p →
       Forall (λ v, is_Some (typeConverter (value_type v))) (op_operands op) →
       ∃ operands,
         matchAndRewrite p op = inr (CheckOperation (op_kind op) operands)).
Proof.
  intros new. split; [|split].
  - apply Forall_forall. intros p Hp.
    by destruct (elem_of_populateCheckToHALPatterns _ _ _ _ Hp) as [k ->].
  - intros p op r Hp Hr.
    destruct (elem_of_populateCheckToHALPatterns _ _ _ _ Hp) as [k ->].
    unfold matchAndRewrite in Hr. simpl in Hr.
    destruct (decide (op_kind op = k)) as [Hk|]; [|discriminate].
    destruct (convertOperands typeConverter (op_operands op))
      as [operands|] eqn:Hc; [|discriminate].
    injection Hr as <-. exists operands. rewrite Hk.
    split; [reflexivity|].
    pose proof (convertOperands_Some _ _ _ Hc) as HF.
    split; [symmetry; exact (Forall2_length _ _ _ HF)|exact HF].
  - intros p op Hp Hk Hconv.
    destruct (elem_of_populateCheckToHALPatterns _ _ _ _ Hp) as [k ->].
    simpl in Hk. unfold matchAndRewrite. simpl.
    rewrite decide_True by exact Hk.
    destruct (convertOperands_total _ _ Hconv) as [operands ->].
    exists operands. by rewrite Hk.
Qed.

(** C6: population has no failing path.  Whatever the import symbol table
    holds, [populateCheckToVMPatterns] appends its five patterns and
    [populateCheckToHALPatterns] its three; a VM pattern whose import name
    the table lacks is constructed all the same, with an empty import
    handle, and the lookup failure shows only when the pattern fires on an
    op of its class. *)
Theorem populators_never_fail context importSymbols patterns typeConverter :
  let new :=
    drop (length patterns)
      (populateCheckToVMPatterns context importSymbols patterns typeConverter) in
  length new = 5
  ∧ length (drop (length patterns)
              (populateCheckToHALPatterns context patterns typeConverter)) = 3
  ∧ Forall (λ p, importNameOf p = Some (table_4_1 (rootOp p))
                 ∧ importOp p = importSymbols !! table_4_1 (rootOp p)) new
  ∧ (∀ p (op : Operation Ty),
       p ∈ new →
       importSymbols !! table_4_1 (rootOp p) = None →
       op_kind op = rootOp p →
       matchAndRewrite p op
       = inl (ImportNameNotFound (table_4_1 (rootOp p)))).
Proof.
  intros new. split; [|split; [|split]].
  - subst new. by rewrite populateCheckToVMPatterns_app, drop_app_length.
  - by rewrite populateCheckToHALPatterns_app, drop_app_length.
  - apply Forall_forall. intros p Hp.
    by destruct (elem_of_populateCheckToVMPatterns _ _ _ _ _ Hp) as [k ->].
  - intros p op Hp Hnone Hk.
    destruct (elem_of_populateCheckToVMPatterns _ _ _ _ _ Hp) as [k ->].
    simpl in *. unfold matchAndRewrite. simpl.
    rewrite decide_True by exact Hk. by rewrite Hnone.
Qed.

End CheckProperties.

(** ** The scenarios, as instances of the theorems above *)

Section CheckScenarios.

Import Check.

(** The HAL scenario of the specification: [check.expect_eq %a, %b] over
    two tensors becomes [check.expect_eq] over two buffer views. *)
Lemma populateCheckToHALPatterns_identity_scenario :
  Forall (λ p, dstOp p = Some (rootOp p))
    (populateCheckToHALPatterns (ImportOp:=string) () [] tensorToBufferView)
  ∧ ∃ operands,
      matchAndRewrite
        (HALOpConversion (ImportOp:=string) ExpectEqOp ExpectEqOp ()
           tensorToBufferView)
        expect_eq_a_b
      = inr (CheckOperation ExpectEqOp operands).
Proof.
  pose proof (populateCheckToHALPatterns_identity
                (ImportOp:=string) () [] tensorToBufferView) as (H1 & _ & H3).
  split; [exact H1|].
  apply (H3 _ expect_eq_a_b).
  - cbn. rewrite !elem_of_cons. right. by left.
  - reflexivity.
  - repeat constructor; by eexists.
Defined.

(** Population against a table without any import: five patterns all the
    same, and the expect_true pattern fails only once it fires. *)
Lemma populators_never_fail_no_imports :
  length (populateCheckToVMPatterns () noImports [] tensorToBufferView) = 5
  ∧ matchAndRewrite
      (VMImportOpConversion ExpectTrueOp () noImports tensorToBufferView
         "check.expect_true")
      expect_true_0
    = inl (ImportNameNotFound "check.expect_true").
Proof.
  pose proof (populators_never_fail () noImports [] tensorToBufferView)
    as (H1 & _ & _ & H4).
  split; [exact H1|].
  apply (H4 (VMImportOpConversion ExpectTrueOp () noImports
               tensorToBufferView "check.expect_true") expect_true_0).
  - cbn. rewrite !elem_of_cons. by left.
  - reflexivity.
  - reflexivity.
Defined.

End CheckScenarios.

(* ===================================================================== *)
(** * Part IV.  Properties of the dynamic-library device                  *)
(* ===================================================================== *)

Section DyLibProperties.

Import DyLib.

Context {DeviceInfo SchedulingModel DyLibExecutableCache TraceLog : Type}.

(** The state of a newly constructed cache and the two halves of the trace
    scope, as [dylib_device.cc] receives them from its headers. *)
Context (ctor : DyLibExecutableCache).
Context (enter leave : string → TraceLog → TraceLog).

Implicit Types (this device : DyLibDevice DeviceInfo)
  (w : World DeviceInfo SchedulingModel DyLibExecutableCache TraceLog)
  (device_info : option DeviceInfo) (scheduling_model : unique_ptr).

(** One call of the factory, spelled out: the handle is not null, the
    address it holds was not live, the heap gains the new cache there and
    nothing else changes but the trace log. *)
Lemma CreateExecutableCache_spec this w :
  ∃ l,
    heap w !! l = None
    ∧ CreateExecutableCache ctor enter leave this w
      = (Some l, this,
         mkWorld (<[l := ExecutableCacheObject ctor]> (heap w)) (released w)
           (leave "DyLibDevice::CreateExecutableCache"
              (enter "DyLibDevice::CreateExecutableCache"
                 (trace w)))).
Proof.
  exists (fresh (dom (heap w))). split.
  - apply not_elem_of_dom, is_fresh.
  - reflexivity.
Qed.

(** The factory never hands out an object that is live. *)
Lemma CreateExecutableCache_not_live this w l :
  is_Some (heap w !! l) →
  (CreateExecutableCache ctor enter leave this w).1.1 ≠ Some l.
Proof.
  destruct (CreateExecutableCache_spec this w) as (l' & Hfresh & ->).
  simpl. intros [o Ho] [= ->]. congruence.
Qed.

(** C4: every call of [CreateExecutableCache] returns a newly constructed
    cache at an address that held no object before the call.  Two
    successive calls on the same device return two different addresses,
    and after the second call both caches are live: the second call does
    not hand out the first cache again. *)
Theorem CreateExecutableCache_distinct this w :
  ∃ l1 l2 w1 w2,
    CreateExecutableCache ctor enter leave this w = (Some l1, this, w1)
    ∧ CreateExecutableCache ctor enter leave this w1 = (Some l2, this, w2)
    ∧ l1 ≠ l2
    ∧ heap w !! l1 = None
    ∧ heap w1 !! l1 = Some (ExecutableCacheObject ctor)
    ∧ heap w1 !! l2 = None
    ∧ heap w2 !! l1 = Some (ExecutableCacheObject ctor)
    ∧ heap w2 !! l2 = Some (ExecutableCacheObject ctor).
Proof.
  destruct (CreateExecutableCache_spec this w) as (l1 & Hl1 & E1).
  match type of E1 with _ = (_, _, ?x) => set (w1 := x) in * end.
  destruct (CreateExecutableCache_spec this w1) as (l2 & Hl2 & E2).
  match type of E2 with _ = (_, _, ?x) => set (w2 := x) in * end.
  exists l1, l2, w1, w2.
  assert (l1 ≠ l2) as Hne.
  { intros ->. subst w1. simpl in Hl2.
    by rewrite lookup_insert_eq in Hl2. }
  split; [exact E1|]. split; [exact E2|].
  subst w2 w1. simpl in *.
  repeat split; try done.
  - by rewrite lookup_insert_eq.
  - by rewrite lookup_insert_ne, lookup_insert_eq by done.
  - by rewrite lookup_insert_eq.
Qed.

(** C10: [CreateExecutableCache] leaves the device as it was: the device
    after the call is the device before it, with the same device info and
    the same scheduling model handle.  Outside the device the call adds
    the new cache to the heap and changes no object that was there, and it
    releases nothing. *)
Theorem CreateExecutableCache_frame this w :
  ∃ l this' w',
    CreateExecutableCache ctor enter leave this w = (Some l, this', w')
    ∧ this' = this
    ∧ device_info_ (base this') = device_info_ (base this)
    ∧ scheduling_model_ (base this') = scheduling_model_ (base this)
    ∧ heap w !! l = None
    ∧ heap w' = <[l := ExecutableCacheObject ctor]> (heap w)
    ∧ delete l (heap w') = heap w
    ∧ heap w ⊆ heap w'
    ∧ released w' = released w.
Proof.
  destruct (CreateExecutableCache_spec this w) as (l & Hl & E).
  eexists l, this, _. split; [exact E|]. simpl.
  repeat split.
  - exact Hl.
  - by apply delete_insert_id.
  - by apply insert_subseteq.
Qed.

(** C7: construction of a [DyLibDevice] yields a device for every device
    info and every scheduling model handle, the null handle included; and
    [CreateExecutableCache] yields, for every device and every state, a
    handle that is not null and holds a live cache. *)
Theorem DyLibDevice_infallible device_info scheduling_model this w :
  (∃ device,
     DyLibDevice_ctor device_info scheduling_model = (device, (None, None))
     ∧ base device = mkHostLocalDevice device_info scheduling_model)
  ∧ (∃ l w',
       CreateExecutableCache ctor enter leave this w = (Some l, this, w')
       ∧ heap w' !! l = Some (ExecutableCacheObject ctor))
  ∧ (CreateExecutableCache ctor enter leave this w).1.1 ≠ None.
Proof.
  split; [|split].
  - eexists. split; reflexivity.
  - destruct (CreateExecutableCache_spec this w) as (l & _ & E).
    eexists l, _. split; [exact E|]. simpl. by rewrite lookup_insert_eq.
  - by destruct (CreateExecutableCache_spec this w) as (l & _ & ->).
Qed.

(** C5: a device constructed from moved handles holds exactly the device
    info and the scheduling model it was given, in its host-local base and
    nowhere else, and the construction itself releases nothing.  The
    caller's two handles are empty afterwards: the scheduling model handle
    because a moved-from [std::unique_ptr] is null, the device info
    variable because the specification has a moved-from device info empty.
    Destroying the device deletes the scheduling model once and releases
    the device info once, and the caller's handles going out of scope
    afterwards release nothing further. *)
Theorem DyLibDevice_ownership device_info scheduling_model w :
  ∃ device caller',
    construct_moved (mkCaller device_info scheduling_model) w
    = (device, caller', w)
    ∧ device
      = mkDyLibDevice (mkHostLocalDevice device_info scheduling_model)
    ∧ caller' = mkCaller None None
    ∧ released (DyLibDevice_dtor device w)
      = released w
        ++ option_list (DeleteObject <$> scheduling_model)
        ++ option_list (ReleaseDeviceInfo <$> device_info)
    ∧ heap (DyLibDevice_dtor device w)
      = from_option (λ l, delete l (heap w)) (heap w) scheduling_model
    ∧ Caller_dtor caller' (DyLibDevice_dtor device w)
      = DyLibDevice_dtor device w.
Proof.
  eexists _, _. split; [reflexivity|].
  split; [reflexivity|]. split; [reflexivity|].
  split; [|split; [|reflexivity]].
  - destruct device_info as [info|], scheduling_model as [l|]; simpl;
      rewrite ?app_nil_r, <- ?app_assoc; done.
  - by destruct device_info as [info|], scheduling_model as [l|].
Qed.

(** What does not rest on the state a moved-from device info is left in:
    whatever the caller's device info variable holds after the
    construction, the device holds what it was given, destroying it
    deletes the scheduling model once and releases the device info of the
    device once, and the caller's null scheduling model handle deletes
    nothing; the only further release is that of what the caller's own
    variable holds. *)
Remark scheduling_model_deleted_once
    device_info scheduling_model (leftover : option DeviceInfo) w :
  (DyLibDevice_ctor device_info scheduling_model).1
  = mkDyLibDevice (mkHostLocalDevice device_info scheduling_model)
  ∧ (DyLibDevice_ctor device_info scheduling_model).2.2 = None
  ∧ released
      (Caller_dtor (mkCaller leftover None)
         (DyLibDevice_dtor
            (DyLibDevice_ctor device_info scheduling_model).1 w))
    = released w
      ++ option_list (DeleteObject <$> scheduling_model)
      ++ option_list (ReleaseDeviceInfo <$> device_info)
      ++ option_list (ReleaseDeviceInfo <$> leftover).
Proof.
  split; [reflexivity|]. split; [reflexivity|].
  destruct device_info as [info|], scheduling_model as [l|],
    leftover as [info'|]; simpl;
    rewrite ?app_nil_r, <- ?app_assoc; done.
Qed.

(** The moves are what makes it once: a caller whose handles still held
    what the device holds would release both a second time. *)
Remark unmoved_handles_release_twice (info : DeviceInfo) (l : loc) w :
  released
    (Caller_dtor (mkCaller (Some info) (Some l))
       (DyLibDevice_dtor
          (mkDyLibDevice (mkHostLocalDevice (Some info) (Some l))) w))
  = released w
    ++ [DeleteObject l; ReleaseDeviceInfo info;
        DeleteObject l; ReleaseDeviceInfo info].
Proof. simpl. by rewrite <- !app_assoc. Qed.

End DyLibProperties.

(* ===================================================================== *)
(** * Part V.  Further properties of the populators                       *)
(* ===================================================================== *)

Section CheckComposition.

Import Check.

Context {MLIRContext ImportOp Ty : Type}.

Implicit Types (context : MLIRContext)
  (importSymbols : SymbolTable ImportOp)
  (typeConverter : TypeConverter Ty)
  (patterns front back : OwningRewritePatternList MLIRContext ImportOp Ty).

(** X1: neither populator looks at what the list holds.  The patterns a
    call appends are those it appends to the empty list, and populating a
    list [front ++ back] is populating [back] behind [front]. *)
Theorem populators_ignore_contents
    context importSymbols front back typeConverter :
  populateCheckToVMPatterns context importSymbols (front ++ back) typeConverter
  = front ++ populateCheckToVMPatterns context importSymbols back typeConverter
  ∧ populateCheckToHALPatterns context (front ++ back) typeConverter
    = front ++ populateCheckToHALPatterns context back typeConverter
  ∧ drop (length back)
      (populateCheckToVMPatterns context importSymbols back typeConverter)
    = populateCheckToVMPatterns context importSymbols [] typeConverter
  ∧ drop (length back)
      (populateCheckToHALPatterns context back typeConverter)
    = populateCheckToHALPatterns context [] typeConverter.
Proof.
  split; [|split; [|split]].
  - rewrite (populateCheckToVMPatterns_app _ _ (front ++ back)).
    rewrite (populateCheckToVMPatterns_app _ _ back).
    by rewrite app_assoc.
  - rewrite (populateCheckToHALPatterns_app _ (front ++ back)).
    rewrite (populateCheckToHALPatterns_app _ back).
    by rewrite app_assoc.
  - by rewrite populateCheckToVMPatterns_app, drop_app_length.
  - by rewrite populateCheckToHALPatterns_app, drop_app_length.
Qed.

(** X2: the two populators can run on one list in either order.  Both
    orders keep the old patterns in front, add eight patterns, and end
    with the same patterns up to their order; only the position of the VM
    patterns relative to the HAL patterns differs. *)
Theorem populators_commute context importSymbols patterns typeConverter :
  let vm_hal :=
    populateCheckToHALPatterns context
      (populateCheckToVMPatterns context importSymbols patterns typeConverter)
      typeConverter in
  let hal_vm :=
    populateCheckToVMPatterns context importSymbols
      (populateCheckToHALPatterns context patterns typeConverter)
      typeConverter in
  vm_hal ≡ₚ hal_vm
  ∧ take (length patterns) vm_hal = patterns
  ∧ take (length patterns) hal_vm = patterns
  ∧ length vm_hal = length patterns + 8
  ∧ length hal_vm = length patterns + 8
  ∧ rootOp <$> drop (length patterns) vm_hal
    = [ExpectTrueOp; ExpectFalseOp; ExpectAllTrueOp; ExpectEqOp;
       ExpectAlmostEqOp; ExpectAllTrueOp; ExpectEqOp; ExpectAlmostEqOp]
  ∧ rootOp <$> drop (length patterns) hal_vm
    = [ExpectAllTrueOp; ExpectEqOp; ExpectAlmostEqOp; ExpectTrueOp;
       ExpectFalseOp; ExpectAllTrueOp; ExpectEqOp; ExpectAlmostEqOp].
Proof.
  intros vm_hal hal_vm. subst vm_hal hal_vm.
  rewrite (populateCheckToHALPatterns_app _ (populateCheckToVMPatterns _ _ _ _)).
  rewrite (populateCheckToVMPatterns_app _ _ (populateCheckToHALPatterns _ _ _)).
  rewrite (populateCheckToVMPatterns_app _ _ patterns).
  rewrite (populateCheckToHALPatterns_app _ patterns).
  set (five := populateCheckToVMPatterns context importSymbols [] typeConverter).
  set (three := populateCheckToHALPatterns context [] typeConverter).
  rewrite <- !app_assoc.
  split; [|split; [|split; [|split; [|split; [|split]]]]].
  - apply Permutation_app_head, Permutation_app_comm.
  - by rewrite take_app_length.
  - by rewrite take_app_length.
  - rewrite !length_app. subst five three. simpl. lia.
  - rewrite !length_app. subst five three. simpl. lia.
  - by rewrite drop_app_length.
  - by rewrite drop_app_length.
Qed.

(** X3: among the patterns one call appends, no two are rooted at the same
    op class, and among those of [populateCheckToVMPatterns] no two record
    the same import name: op class and import name determine each other. *)
Theorem populators_no_clash context importSymbols patterns typeConverter :
  let vm :=
    drop (length patterns)
      (populateCheckToVMPatterns context importSymbols patterns typeConverter) in
  let hal :=
    drop (length patterns)
      (populateCheckToHALPatterns context patterns typeConverter) in
  NoDup (rootOp <$> vm)
  ∧ NoDup (importNameOf <$> vm)
  ∧ NoDup (rootOp <$> hal).
Proof.
  intros vm hal. subst vm hal.
  rewrite populateCheckToVMPatterns_app, populateCheckToHALPatterns_app.
  rewrite !drop_app_length. cbn.
  split; [|split]; by apply (bool_decide_unpack _).
Qed.

(** X4: every op class that [populateCheckToHALPatterns] registers a
    pattern for is one that [populateCheckToVMPatterns] registers a pattern
    for; the op classes that only the VM populator handles are expect_true
    and expect_false. *)
Theorem populateCheckToHALPatterns_within_VM
    context importSymbols patterns typeConverter :
  let vm :=
    rootOp <$> drop (length patterns)
      (populateCheckToVMPatterns context importSymbols patterns typeConverter) in
  let hal :=
    rootOp <$> drop (length patterns)
      (populateCheckToHALPatterns context patterns typeConverter) in
  hal ⊆ vm
  ∧ filter (λ op, op ∉ hal) vm = [ExpectTrueOp; ExpectFalseOp]
  ∧ filter (λ op, op ∈ hal) vm = hal.
Proof.
  intros vm hal. subst vm hal.
  rewrite populateCheckToVMPatterns_app, populateCheckToHALPatterns_app.
  rewrite !drop_app_length. cbn.
  split; [|split].
  - intros op. rewrite !elem_of_cons, !elem_of_nil. tauto.
  - by vm_compute.
  - by vm_compute.
Qed.

End CheckComposition.

(* ===================================================================== *)
(** * Part VI.  Further properties of the executable-cache factory        *)
(* ===================================================================== *)

Section DyLibComposition.

Import DyLib.

Context {DeviceInfo SchedulingModel DyLibExecutableCache TraceLog : Type}.
Context (ctor : DyLibExecutableCache).
Context (enter leave : string → TraceLog → TraceLog).

Implicit Types (this : DyLibDevice DeviceInfo)
  (w : World DeviceInfo SchedulingModel DyLibExecutableCache TraceLog).

(** X5: any number of successive calls of [CreateExecutableCache] on one
    device return handles that are not null and pairwise different.  None
    of the addresses was live before the first call, every one holds a new
    cache after the last, every object that was live before is unchanged,
    the heap has grown by exactly one object per call, and the device is
    as it was. *)
Theorem CreateExecutableCaches_distinct n this w :
  ∃ ls w',
    CreateExecutableCaches ctor enter leave n this w = (Some <$> ls, this, w')
    ∧ length ls = n
    ∧ NoDup ls
    ∧ Forall (λ l, heap w !! l = None) ls
    ∧ Forall (λ l, heap w' !! l = Some (ExecutableCacheObject ctor)) ls
    ∧ heap w ⊆ heap w'
    ∧ size (heap w') = size (heap w) + n
    ∧ released w' = released w.
Proof.
  revert w. induction n as [|n IH]; intros w.
  - exists [], w. simpl. repeat split; try done; try constructor; lia.
  - destruct (CreateExecutableCache_spec ctor enter leave this w)
      as (l & Hl & E).
    match type of E with _ = (_, _, ?x) => set (w1 := x) in * end.
    destruct (IH w1) as (ls & w' & En & Hlen & Hnd & Hnew & Hlive & Hsub
                         & Hsize & Hrel).
    exists (l :: ls), w'.
    assert (heap w1 !! l = Some (ExecutableCacheObject ctor)) as Hl1
      by (subst w1; simpl; apply lookup_insert_eq).
    split.
    { cbn [CreateExecutableCaches]. rewrite E. cbn beta iota.
      rewrite En. reflexivity. }
    split; [simpl; by rewrite Hlen|].
    split; [|split; [|split; [|split; [|split]]]].
    + constructor; [|exact Hnd].
      intros Hin. rewrite Forall_forall in Hnew.
      specialize (Hnew l Hin). congruence.
    + constructor; [exact Hl|].
      eapply Forall_impl; [exact Hnew|]. intros l' Hl'.
      subst w1. simpl in Hl'. by apply lookup_insert_None in Hl' as [? _].
    + constructor; [|exact Hlive].
      by eapply lookup_weaken.
    + etrans; [|exact Hsub]. subst w1. simpl. by apply insert_subseteq.
    + rewrite Hsize. subst w1. simpl.
      rewrite map_size_insert_None by exact Hl. lia.
    + rewrite Hrel. by subst w1.
Qed.

(** X6: when the scheduling model of the device is a live object, the
    handle [CreateExecutableCache] returns is not the address of that
    object, and the object is the same after the call: the new cache never
    takes the place of the scheduling model. *)
Theorem CreateExecutableCache_keeps_scheduling_model this w l o :
  scheduling_model_ (base this) = Some l →
  heap w !! l = Some o →
  (CreateExecutableCache ctor enter leave this w).1.1 ≠ Some l
  ∧ heap (CreateExecutableCache ctor enter leave this w).2 !! l = Some o
  ∧ scheduling_model_ (base (CreateExecutableCache ctor enter leave this w).1.2)
    = Some l.
Proof.
  intros Hthis Hlive.
  destruct (CreateExecutableCache_spec ctor enter leave this w)
    as (l' & Hfresh & ->).
  simpl. assert (l' ≠ l) as Hne by congruence.
  split; [congruence|]. split; [|exact Hthis].
  by rewrite lookup_insert_ne.
Qed.

End DyLibComposition.

Section DyLibScenario.

Import DyLib.

(** The device of the scenario keeps its scheduling model at address 1
    across a call. *)
Lemma CreateExecutableCache_keeps_scheduling_model_scenario :
  (CreateExecutableCache () (λ _ t, t) (λ _ t, t)
     oneModelDevice oneModelWorld).1.1 ≠ Some 1%positive
  ∧ heap (CreateExecutableCache () (λ _ t, t) (λ _ t, t)
            oneModelDevice oneModelWorld).2 !! 1%positive
    = Some (SchedulingModelObject ())
  ∧ scheduling_model_
      (base (CreateExecutableCache () (λ _ t, t) (λ _ t, t)
               oneModelDevice oneModelWorld).1.2)
    = Some 1%positive.
Proof.
  apply (CreateExecutableCache_keeps_scheduling_model
           () (λ _ t, t) (λ _ t, t) oneModelDevice oneModelWorld
           1%positive (SchedulingModelObject ())).
  - reflexivity.
  - reflexivity.
Defined.

End DyLibScenario.
